(** * ModularBackend: the persistence schema of [app/models/models.py]

    The module declares four SQLModel tables ([User], [Booking], [Order],
    [OrderItem]) and four string enumerations.  The development below
    embeds the declarations as data -- one [FieldDecl] per annotated class
    attribute, written with the keywords the source passes to [Field(...)]
    -- and gives them the meaning the validating layer assigns to those
    keywords: construction fills defaults and checks supplied values,
    attribute assignment re-checks them when the class [Config] asks for it. *)

From Stdlib Require Import ZArith QArith Qabs Lia.
From Stdlib Require Import Floats.SpecFloat Strings.Ascii.
From stdpp Require Import base option list strings gmap.

Set Default Proof Using "Type".
Local Open Scope string_scope.

(** ** Enumerations

    Each [class X(str, Enum)] becomes a module with the member type [t],
    the member's [value] and the lookup by value that [X(value)] performs. *)

Module BookingStatus.
Inductive t := PENDING | CONFIRMED | CANCELLED | COMPLETED.

Definition value (e : t) : string :=
  match e with
  | PENDING => "pending"
  | CONFIRMED => "confirmed"
  | CANCELLED => "cancelled"
  | COMPLETED => "completed"
  end.

Definition members : list t := [PENDING; CONFIRMED; CANCELLED; COMPLETED].

Definition of_value (s : string) : option t :=
  List.find (fun e => String.eqb (value e) s) members.
End BookingStatus.

Module OrderStatus.
Inductive t :=
  PENDING | CONFIRMED | IN_PROGRESS | READY | COMPLETED | CANCELLED | REFUNDED.

Definition value (e : t) : string :=
  match e with
  | PENDING => "pending"
  | CONFIRMED => "confirmed"
  | IN_PROGRESS => "in_progress"
  | READY => "ready"
  | COMPLETED => "completed"
  | CANCELLED => "cancelled"
  | REFUNDED => "refunded"
  end.

Definition members : list t :=
  [PENDING; CONFIRMED; IN_PROGRESS; READY; COMPLETED; CANCELLED; REFUNDED].

Definition of_value (s : string) : option t :=
  List.find (fun e => String.eqb (value e) s) members.
End OrderStatus.

Module OrderType.
Inductive t := PICKUP | DELIVERY | DINE_IN | ONLINE | IN_STORE | SERVICE.

Definition value (e : t) : string :=
  match e with
  | PICKUP => "pickup"
  | DELIVERY => "delivery"
  | DINE_IN => "dine_in"
  | ONLINE => "online"
  | IN_STORE => "in_store"
  | SERVICE => "service"
  end.

Definition members : list t :=
  [PICKUP; DELIVERY; DINE_IN; ONLINE; IN_STORE; SERVICE].

Definition of_value (s : string) : option t :=
  List.find (fun e => String.eqb (value e) s) members.
End OrderType.

Module PaymentStatus.
Inductive t := PENDING | PAID | FAILED | REFUNDED.

Definition value (e : t) : string :=
  match e with
  | PENDING => "pending"
  | PAID => "paid"
  | FAILED => "failed"
  | REFUNDED => "refunded"
  end.

Definition members : list t := [PENDING; PAID; FAILED; REFUNDED].

Definition of_value (s : string) : option t :=
  List.find (fun e => String.eqb (value e) s) members.
End PaymentStatus.

(** The four enumeration classes, and a member of any of them. *)
Inductive EnumClass :=
  | cls_BookingStatus
  | cls_OrderStatus
  | cls_OrderType
  | cls_PaymentStatus.

Inductive Member :=
  | in_BookingStatus (e : BookingStatus.t)
  | in_OrderStatus (e : OrderStatus.t)
  | in_OrderType (e : OrderType.t)
  | in_PaymentStatus (e : PaymentStatus.t).

Definition member_class (m : Member) : EnumClass :=
  match m with
  | in_BookingStatus _ => cls_BookingStatus
  | in_OrderStatus _ => cls_OrderStatus
  | in_OrderType _ => cls_OrderType
  | in_PaymentStatus _ => cls_PaymentStatus
  end.

Definition member_value (m : Member) : string :=
  match m with
  | in_BookingStatus e => BookingStatus.value e
  | in_OrderStatus e => OrderStatus.value e
  | in_OrderType e => OrderType.value e
  | in_PaymentStatus e => PaymentStatus.value e
  end.

Definition enum_of_value (c : EnumClass) (s : string) : option Member :=
  match c with
  | cls_BookingStatus => in_BookingStatus <$> BookingStatus.of_value s
  | cls_OrderStatus => in_OrderStatus <$> OrderStatus.of_value s
  | cls_OrderType => in_OrderType <$> OrderType.of_value s
  | cls_PaymentStatus => in_PaymentStatus <$> PaymentStatus.of_value s
  end.

(** The values of a class, in declaration order. *)
Definition enum_values (c : EnumClass) : list string :=
  match c with
  | cls_BookingStatus => BookingStatus.value <$> BookingStatus.members
  | cls_OrderStatus => OrderStatus.value <$> OrderStatus.members
  | cls_OrderType => OrderType.value <$> OrderType.members
  | cls_PaymentStatus => PaymentStatus.value <$> PaymentStatus.members
  end.

(** ** Python values *)

(** [decimal.Decimal]: sign, coefficient and exponent of a finite number
    (the number [(-1)^sign * coeff * 10^exp]), or a special value. *)
Inductive Decimal :=
  | Dec (sign : bool) (coeff : N) (exp : Z)
  | DecInfinity (sign : bool)
  | DecNaN.

(** A value held by a field.  A [float] is an IEEE 754 binary64 number,
    given by its sign, mantissa and binary exponent. *)
Inductive Value :=
  | VNone
  | VStr (s : string)
  | VInt (z : Z)
  | VFloat (f : spec_float)
  | VDecimal (d : Decimal)
  | VUUID (u : N)
  | VDatetime (t : Z)
  | VEnum (m : Member).

(** ** Declarations *)

(** Type annotations used by the module. *)
Inductive Annot :=
  | t_UUID
  | t_str
  | t_int
  | t_float
  | t_Decimal
  | t_datetime
  | t_Enum (c : EnumClass)
  | Optional (a : Annot).

(** The callables passed as [default_factory]. *)
Inductive Factory := uuid4 | datetime_utcnow.

(** The keyword arguments of [Field(...)] that the module uses. *)
Module Kw.
Inductive t :=
  | default (v : Value)
  | default_factory (f : Factory)
  | primary_key (b : bool)
  | foreign_key (target : string)
  | max_length (n : nat)
  | max_digits (n : nat)
  | decimal_places (n : nat)
  | ge (bound : Z).
End Kw.

(** One annotated class attribute: [name: annotation = Field(keywords)].
    An attribute with a bare annotation has no keywords. *)
Record FieldDecl := Attr {
  fname : string;
  annotation : Annot;
  keywords : list Kw.t
}.

(** The inner [class Config]; a class without one has the library's
    defaults. *)
Record Config := { validate_assignment : bool }.

Definition default_config : Config := {| validate_assignment := false |}.

Record Model := {
  model_name : string;
  table : bool;
  fields : list FieldDecl;
  config : Config
}.

Definition User : Model := {|
  model_name := "User";
  table := true;
  fields := [
    Attr "id" t_UUID [Kw.default_factory uuid4; Kw.primary_key true];
    Attr "name" t_str [Kw.max_length 100];
    Attr "email" t_str [Kw.max_length 255];
    Attr "phone_number" t_str [Kw.max_length 15];
    Attr "role" t_str [Kw.max_length 5];
    Attr "created_at" t_datetime [];
    Attr "updated_at" t_datetime []
  ];
  config := default_config
|}.

Definition Booking : Model := {|
  model_name := "Booking";
  table := true;
  fields := [
    Attr "id" t_UUID [Kw.default_factory uuid4; Kw.primary_key true];
    Attr "client_name" t_str [Kw.max_length 255];
    Attr "email" t_str [Kw.max_length 255];
    Attr "phone" (Optional t_str) [Kw.default VNone; Kw.max_length 20];
    Attr "start_time" t_datetime [];
    Attr "end_time" t_datetime [];
    Attr "service_type" (Optional t_str) [Kw.default VNone; Kw.max_length 100];
    Attr "notes" (Optional t_str) [Kw.default VNone; Kw.max_length 1000];
    Attr "owner_name" t_str [Kw.max_length 255];
    Attr "address" t_str [Kw.max_length 255];
    Attr "status" (t_Enum cls_BookingStatus)
      [Kw.default (VEnum (in_BookingStatus BookingStatus.PENDING))];
    Attr "created_at" t_datetime [Kw.default_factory datetime_utcnow];
    Attr "updated_at" t_datetime [Kw.default_factory datetime_utcnow];
    Attr "user_id" (Optional t_UUID) [Kw.default VNone; Kw.foreign_key "user.id"];
    Attr "estimated_price" (Optional t_float) [Kw.default VNone];
    Attr "final_price" (Optional t_float) [Kw.default VNone]
  ];
  config := default_config
|}.

Definition Order : Model := {|
  model_name := "Order";
  table := true;
  fields := [
    Attr "id" t_UUID [Kw.default_factory uuid4; Kw.primary_key true];
    Attr "user_id" (Optional t_UUID) [Kw.default VNone; Kw.foreign_key "user.id"];
    Attr "customer_name" t_str [Kw.max_length 255];
    Attr "email" t_str [Kw.max_length 255];
    Attr "phone_number" (Optional t_str) [Kw.max_length 15];
    Attr "address" (Optional t_str) [Kw.max_length 255];
    Attr "city" (Optional t_str) [Kw.max_length 255];
    Attr "state" (Optional t_str) [Kw.max_length 100];
    Attr "postal_code" (Optional t_str) [Kw.max_length 20];
    Attr "country" (Optional t_str) [Kw.max_length 100; Kw.default (VStr "US")];
    Attr "order_type" (t_Enum cls_OrderType)
      [Kw.default (VEnum (in_OrderType OrderType.PICKUP))];
    Attr "subtotal" t_Decimal [Kw.max_digits 10; Kw.decimal_places 2];
    Attr "tax_amount" t_Decimal
      [Kw.default (VInt 0); Kw.max_digits 10; Kw.decimal_places 2];
    Attr "service_fee" t_Decimal
      [Kw.default (VInt 0); Kw.max_digits 10; Kw.decimal_places 2];
    Attr "discount_amount" t_Decimal
      [Kw.default (VInt 0); Kw.max_digits 10; Kw.decimal_places 2];
    Attr "tip_amount" t_Decimal
      [Kw.default (VInt 0); Kw.max_digits 10; Kw.decimal_places 2];
    Attr "total_amount" t_Decimal [Kw.max_digits 10; Kw.decimal_places 2];
    Attr "status" (t_Enum cls_OrderStatus)
      [Kw.default (VEnum (in_OrderStatus OrderStatus.PENDING))];
    Attr "payment_status" (t_Enum cls_PaymentStatus)
      [Kw.default (VEnum (in_PaymentStatus PaymentStatus.PENDING))];
    Attr "created_at" t_datetime [Kw.default_factory datetime_utcnow];
    Attr "updated_at" t_datetime [Kw.default_factory datetime_utcnow];
    Attr "scheduled_for" (Optional t_datetime) [Kw.default VNone];
    Attr "completed_at" (Optional t_datetime) [Kw.default VNone];
    Attr "special_instructions" (Optional t_str) [Kw.max_length 1000];
    Attr "reference_number" (Optional t_str) [Kw.max_length 100];
    Attr "payment_method" (Optional t_str) [Kw.max_length 50];
    Attr "payment_reference" (Optional t_str) [Kw.max_length 100];
    Attr "promo_code" (Optional t_str) [Kw.max_length 50];
    Attr "business_notes" (Optional t_str) [Kw.max_length 1000]
  ];
  config := {| validate_assignment := true |}
|}.

Definition OrderItem : Model := {|
  model_name := "OrderItem";
  table := true;
  fields := [
    Attr "id" t_UUID [Kw.default_factory uuid4; Kw.primary_key true];
    Attr "order_id" t_UUID [Kw.foreign_key "order.id"];
    Attr "item_name" t_str [Kw.max_length 255];
    Attr "item_description" (Optional t_str) [Kw.max_length 500];
    Attr "item_category" (Optional t_str) [Kw.max_length 100];
    Attr "quantity" t_int [Kw.default (VInt 1); Kw.ge 1];
    Attr "unit_price" t_Decimal [Kw.max_digits 10; Kw.decimal_places 2];
    Attr "total_price" t_Decimal [Kw.max_digits 10; Kw.decimal_places 2];
    Attr "customizations" (Optional t_str) [Kw.max_length 500];
    Attr "item_notes" (Optional t_str) [Kw.max_length 500];
    Attr "item_reference" (Optional t_str) [Kw.max_length 100];
    Attr "created_at" t_datetime [Kw.default_factory datetime_utcnow]
  ];
  config := default_config
|}.

Definition schema : list Model := [User; Booking; Order; OrderItem].

(** ** Keyword lookup *)

Fixpoint kw_lookup {A : Type} (sel : Kw.t -> option A) (ks : list Kw.t)
  : option A :=
  match ks with
  | [] => None
  | k :: ks' =>
      match sel k with
      | Some a => Some a
      | None => kw_lookup sel ks'
      end
  end.

Definition kw_default (f : FieldDecl) : option Value :=
  kw_lookup (fun k => match k with Kw.default v => Some v | _ => None end)
            (keywords f).

Definition kw_default_factory (f : FieldDecl) : option Factory :=
  kw_lookup (fun k => match k with Kw.default_factory c => Some c | _ => None end)
            (keywords f).

Definition kw_foreign_key (f : FieldDecl) : option string :=
  kw_lookup (fun k => match k with Kw.foreign_key t => Some t | _ => None end)
            (keywords f).

Definition kw_max_length (f : FieldDecl) : option nat :=
  kw_lookup (fun k => match k with Kw.max_length n => Some n | _ => None end)
            (keywords f).

Definition kw_max_digits (f : FieldDecl) : option nat :=
  kw_lookup (fun k => match k with Kw.max_digits n => Some n | _ => None end)
            (keywords f).

Definition kw_decimal_places (f : FieldDecl) : option nat :=
  kw_lookup (fun k => match k with Kw.decimal_places n => Some n | _ => None end)
            (keywords f).

Definition kw_ge (f : FieldDecl) : option Z :=
  kw_lookup (fun k => match k with Kw.ge b => Some b | _ => None end)
            (keywords f).

Definition find_field (m : Model) (name : string) : option FieldDecl :=
  List.find (fun f => String.eqb (fname f) name) (fields m).

Definition is_optional (a : Annot) : bool :=
  match a with
  | Optional _ => true
  | _ => false
  end.

(** The annotation under any [Optional]. *)
Fixpoint base_annot (a : Annot) : Annot :=
  match a with
  | Optional a' => base_annot a'
  | _ => a
  end.

(** ** Numbers *)

Definition signed (neg : bool) (m : Z) : Z := if neg then (- m)%Z else m.

(** [m * base^e], with the sign applied, as an exact rational. *)
Definition scaled (neg : bool) (m : Z) (base : Z) (e : Z) : Q :=
  if (0 <=? e)%Z then inject_Z (signed neg m * base ^ e)
  else Qmake (signed neg m) (Z.to_pos (base ^ (- e))).

Definition Decimal_to_Q (sign : bool) (coeff : N) (exp : Z) : Q :=
  scaled sign (Z.of_N coeff) 10 exp.

(** The number a numeric value denotes. *)
Inductive Num := Fin (q : Q) | PosInf | NegInf | NotANumber.

Definition inf (neg : bool) : Num := if neg then NegInf else PosInf.

Definition to_num (v : Value) : option Num :=
  match v with
  | VInt z => Some (Fin (inject_Z z))
  | VFloat (S754_zero _) => Some (Fin 0%Q)
  | VFloat (S754_finite s m e) => Some (Fin (scaled s (Z.pos m) 2 e))
  | VFloat (S754_infinity s) => Some (inf s)
  | VFloat S754_nan => Some NotANumber
  | VDecimal (Dec s c e) => Some (Fin (Decimal_to_Q s c e))
  | VDecimal (DecInfinity s) => Some (inf s)
  | VDecimal DecNaN => Some NotANumber
  | _ => None
  end.

Definition num_eqb (a b : Num) : bool :=
  match a, b with
  | Fin p, Fin q => Qeq_bool p q
  | PosInf, PosInf => true
  | NegInf, NegInf => true
  | _, _ => false
  end.

Definition num_leb (a b : Num) : bool :=
  match a, b with
  | Fin p, Fin q => Qle_bool p q
  | NegInf, (Fin _ | PosInf | NegInf) => true
  | (Fin _ | PosInf), PosInf => true
  | _, _ => false
  end.

(** Python's [==] on the values of the model.  Members of a [str]
    enumeration compare as their string values; numbers compare by the
    number they denote. *)
Definition py_eq (a b : Value) : bool :=
  match a, b with
  | VNone, VNone => true
  | VStr s, VStr t => String.eqb s t
  | VEnum m, VStr s => String.eqb (member_value m) s
  | VStr s, VEnum m => String.eqb s (member_value m)
  | VEnum m, VEnum m' => String.eqb (member_value m) (member_value m')
  | VUUID u, VUUID u' => N.eqb u u'
  | VDatetime t, VDatetime t' => Z.eqb t t'
  | _, _ =>
      match to_num a, to_num b with
      | Some x, Some y => num_eqb x y
      | _, _ => false
      end
  end.

(** Decimal digit count of a coefficient: the length of the digit tuple,
    so zero has one digit. *)
Fixpoint digits_aux (fuel : nat) (n : N) : nat :=
  match fuel with
  | O => 1
  | S fuel' => if (n <? 10)%N then 1%nat else S (digits_aux fuel' (n / 10))
  end.

Definition num_digits (n : N) : nat := digits_aux (N.size_nat n) n.

(** [Decimal.normalize]: trailing zeros of the coefficient move into the
    exponent; zero becomes [0E+0]. *)
Fixpoint strip_zeros (fuel : nat) (c : N) (e : Z) : N * Z :=
  match fuel with
  | O => (c, e)
  | S fuel' =>
      if (c mod 10 =? 0)%N then strip_zeros fuel' (c / 10)%N (e + 1)%Z
      else (c, e)
  end.

Definition normalize (c : N) (e : Z) : N * Z :=
  if (c =? 0)%N then (0%N, 0%Z) else strip_zeros (N.size_nat c) c e.

(** The digit counts the decimal constraints are checked against:
    (total digits, digits after the point) of the normalized number. *)
Definition digits_and_decimals (c : N) (e : Z) : Z * Z :=
  let '(c', e') := normalize c e in
  let n := Z.of_nat (num_digits c') in
  if (0 <=? e')%Z then ((n + e')%Z, 0%Z)
  else if (n <? Z.abs e')%Z then (Z.abs e', Z.abs e')
  else (n, Z.abs e').

Definition whole_digits (c : N) (e : Z) : Z :=
  let '(digits, decimals) := digits_and_decimals c e in (digits - decimals)%Z.

(** ** Validation *)

Inductive Error :=
  | missing
  | none_not_allowed
  | type_error
  | enum_error
  | max_length_error (limit : nat)
  | not_ge_error (limit : Z)
  | decimal_not_finite
  | decimal_max_digits (limit : nat)
  | decimal_max_places (limit : nat)
  | decimal_whole_digits (limit : Z)
  | no_such_field.

Inductive Checked (E A : Type) :=
  | Ok (a : A)
  | Err (e : E).
Arguments Ok {E A} a.
Arguments Err {E A} e.

Definition is_ok {E A : Type} (c : Checked E A) : bool :=
  match c with
  | Ok _ => true
  | Err _ => false
  end.

Definition and_then {E A B : Type} (c : Checked E A) (k : A -> Checked E B)
  : Checked E B :=
  match c with
  | Ok a => k a
  | Err e => Err e
  end.

(** The value against its annotation.  [None] is a value of [Optional]
    annotations only; an enumeration field takes a member or the string
    value of one and holds the member; a [Decimal] must be finite.  The
    library's conversions between other types (a string or an integer
    given for a [Decimal], say) are not modelled: any other value has to
    carry the annotated type already. *)
Fixpoint check_type (a : Annot) (v : Value) : Checked Error Value :=
  match a, v with
  | Optional _, VNone => Ok VNone
  | Optional a', _ => check_type a' v
  | _, VNone => Err none_not_allowed
  | t_UUID, VUUID _ => Ok v
  | t_str, VStr _ => Ok v
  | t_int, VInt _ => Ok v
  | t_float, VFloat _ => Ok v
  | t_datetime, VDatetime _ => Ok v
  | t_Decimal, VDecimal (Dec _ _ _) => Ok v
  | t_Decimal, VDecimal _ => Err decimal_not_finite
  | t_Enum c, VStr s =>
      match enum_of_value c s with
      | Some m => Ok (VEnum m)
      | None => Err enum_error
      end
  | t_Enum c, VEnum m =>
      match enum_of_value c (member_value m) with
      | Some m' => Ok (VEnum m')
      | None => Err enum_error
      end
  | _, _ => Err type_error
  end.

(** [max_digits] and [decimal_places] on a finite decimal. *)
Definition check_decimal (f : FieldDecl) (c : N) (e : Z) : option Error :=
  let '(digits, decimals) := digits_and_decimals c e in
  match kw_max_digits f, kw_decimal_places f with
  | Some md, Some dp =>
      if (Z.of_nat md <? digits)%Z then Some (decimal_max_digits md)
      else if (Z.of_nat dp <? decimals)%Z then Some (decimal_max_places dp)
      else if (Z.of_nat md - Z.of_nat dp <? digits - decimals)%Z
           then Some (decimal_whole_digits (Z.of_nat md - Z.of_nat dp))
      else None
  | Some md, None =>
      if (Z.of_nat md <? digits)%Z then Some (decimal_max_digits md) else None
  | None, Some dp =>
      if (Z.of_nat dp <? decimals)%Z then Some (decimal_max_places dp) else None
  | None, None => None
  end.

(** [ge] on a number. *)
Definition check_ge (f : FieldDecl) (v : Value) : option Error :=
  match kw_ge f, to_num v with
  | Some b, Some x =>
      if num_leb (Fin (inject_Z b)) x then None else Some (not_ge_error b)
  | _, _ => None
  end.

(** [max_length] on a string. *)
Definition check_max_length (f : FieldDecl) (s : string) : option Error :=
  match kw_max_length f with
  | Some n =>
      if (n <? String.length s)%nat then Some (max_length_error n) else None
  | None => None
  end.

(** The declared constraints of a field on a value of its type. *)
Definition check_constraints (f : FieldDecl) (v : Value) : option Error :=
  match v with
  | VStr s => check_max_length f s
  | VInt _ | VFloat _ => check_ge f v
  | VDecimal (Dec _ c e) =>
      match check_ge f v with
      | Some err => Some err
      | None => check_decimal f c e
      end
  | _ => None
  end.

Definition validate_field (f : FieldDecl) (v : Value) : Checked Error Value :=
  and_then (check_type (annotation f) v) (fun v' =>
    match check_constraints f v' with
    | Some err => Err err
    | None => Ok v'
    end).

(** ** Construction and assignment *)

(** What the default factories return when called for a given field. *)
Record Env := {
  uuid_for : string -> N;
  utcnow_for : string -> Z
}.

Definition call_factory (env : Env) (name : string) (c : Factory) : Value :=
  match c with
  | uuid4 => VUUID (uuid_for env name)
  | datetime_utcnow => VDatetime (utcnow_for env name)
  end.

Section Enforcement.

(** Whether an [Optional] attribute that declares no default is given
    the default [None] (the validating library changed this between its
    major versions; every result below holds for both). *)
Variable implicit_none : bool.

Definition field_required (f : FieldDecl) : bool :=
  match kw_default f, kw_default_factory f with
  | None, None => negb (implicit_none && is_optional (annotation f))
  | _, _ => false
  end.

(** The value a new instance holds for [f], given the keyword arguments
    of the constructor call.  Declared defaults are stored as written. *)
Definition field_init (env : Env) (kwargs : gmap string Value)
                      (f : FieldDecl) : Checked Error Value :=
  match kwargs !! fname f with
  | Some v => validate_field f v
  | None =>
      match kw_default f with
      | Some d => Ok d
      | None =>
          match kw_default_factory f with
          | Some c => Ok (call_factory env (fname f) c)
          | None =>
              if implicit_none && is_optional (annotation f) then Ok VNone
              else Err missing
          end
      end
  end.

Fixpoint init_fields (env : Env) (kwargs : gmap string Value)
                     (fs : list FieldDecl)
  : list (string * Value) * list (string * Error) :=
  match fs with
  | [] => ([], [])
  | f :: fs' =>
      let '(vals, errs) := init_fields env kwargs fs' in
      match field_init env kwargs f with
      | Ok v => ((fname f, v) :: vals, errs)
      | Err e => (vals, (fname f, e) :: errs)
      end
  end.

(** The constructor call of a model with keyword arguments: every
    declared field is initialised; the call fails with the errors of
    all fields when any field fails. *)
Definition construct (env : Env) (m : Model) (kwargs : gmap string Value)
  : Checked (list (string * Error)) (gmap string Value) :=
  match init_fields env kwargs (fields m) with
  | (vals, []) => Ok (list_to_map vals)
  | (_, errs) => Err errs
  end.

End Enforcement.

(** [obj.name = v] on an instance [r] of model [m]. *)
Definition setattr (m : Model) (r : gmap string Value) (name : string)
                   (v : Value) : Checked Error (gmap string Value) :=
  match find_field m name with
  | None => Err no_such_field
  | Some f =>
      if validate_assignment (config m) then
        and_then (validate_field f v) (fun v' => Ok (<[name := v']> r))
      else Ok (<[name := v]> r)
  end.

(** ** Notions the properties are stated with *)

(** A call the declarations accept: every supplied value passes the
    validation of its field and every field without a value has a
    default to fall back on. *)
Definition field_accepts (implicit_none : bool) (kwargs : gmap string Value)
                         (f : FieldDecl) : bool :=
  match kwargs !! fname f with
  | Some v => is_ok (validate_field f v)
  | None => negb (field_required implicit_none f)
  end.

Definition accepted_call (implicit_none : bool) (m : Model)
                         (kwargs : gmap string Value) : bool :=
  forallb (field_accepts implicit_none kwargs) (fields m).

(** The attribute [name] of the record holds a value equal to [v]. *)
Definition holds (r : gmap string Value) (name : string) (v : Value)
  : Prop :=
  exists x, r !! name = Some x /\ py_eq x v = true.

(** The attributes under the "Pricing" and "Quantity and pricing" comments
    of the source that hold an amount of money, by class and name. *)
Definition pricing_fields : list (string * string) :=
  [ ("Booking", "estimated_price"); ("Booking", "final_price");
    ("Order", "subtotal"); ("Order", "tax_amount"); ("Order", "service_fee");
    ("Order", "discount_amount"); ("Order", "tip_amount");
    ("Order", "total_amount");
    ("OrderItem", "unit_price"); ("OrderItem", "total_price") ].



(** An annotation whose values are exact decimals: an integer or a
    [Decimal]; and one whose values are binary floating-point numbers. *)
Definition exact_decimal (a : Annot) : bool :=
  match base_annot a with
  | t_Decimal | t_int => true
  | _ => false
  end.

Definition binary_float (a : Annot) : bool :=
  match base_annot a with
  | t_float => true
  | _ => false
  end.

(** The number with the opposite sign. *)
Definition negate (v : Value) : Value :=
  match v with
  | VInt z => VInt (- z)
  | VFloat x => VFloat (SFopp x)
  | VDecimal (Dec s c e) => VDecimal (Dec (negb s) c e)
  | VDecimal (DecInfinity s) => VDecimal (DecInfinity (negb s))
  | _ => v
  end.

Definition is_negative (v : Value) : bool :=
  match to_num v with
  | Some (Fin q) => negb (Qle_bool 0 q)
  | Some NegInf => true
  | _ => false
  end.

(** The fields of a model that declare a lower bound. *)
Definition lower_bounded (m : Model) : list string :=
  fname <$> filter (fun f => is_Some (kw_ge f)) (fields m).

(** The fields of a model annotated with an enumeration. *)
Definition enum_fields (m : Model) : list (string * EnumClass) :=
  omap (fun f => match base_annot (annotation f) with
                 | t_Enum c => Some (fname f, c)
                 | _ => None
                 end) (fields m).


(** A string of [n] letters. *)
Fixpoint letters (n : nat) : string :=
  match n with
  | O => EmptyString
  | S n' => String "x"%char (letters n')
  end.

(** The model class of a given name. *)
Definition model_named (cls : string) : option Model :=
  List.find (fun m => String.eqb (model_name m) cls) schema.

Definition is_numeric (a : Annot) : bool :=
  match base_annot a with
  | t_int | t_float | t_Decimal => true
  | _ => false
  end.

(** The fields of the schema annotated with a number type, by class and
    name. *)
Definition numeric_fields : list (string * string) :=
  m ← schema;
  (fun f => (model_name m, fname f)) <$>
    filter (fun f => is_numeric (annotation f) = true) (fields m).

(** The binary64 numbers 0.125 and -1.0. *)
Definition float_one_eighth : spec_float :=
  S754_finite false 4503599627370496 (-55).

Definition float_minus_one : spec_float :=
  S754_finite true 4503599627370496 (-52).

(** Sample calls: what the factories return, and the keyword arguments of
    a guest order, a guest booking and an order line. *)
Definition sample_env : Env :=
  {| uuid_for := fun _ => 1%N; utcnow_for := fun _ => 0%Z |}.

Definition order_kwargs : gmap string Value :=
  list_to_map
    [ ("customer_name", VStr "Ann"); ("email", VStr "ann@example.org");
      ("subtotal", VDecimal (Dec false 1000 (-2)));
      ("total_amount", VDecimal (Dec false 1000 (-2))) ].

Definition booking_kwargs : gmap string Value :=
  list_to_map
    [ ("client_name", VStr "Ann"); ("email", VStr "ann@example.org");
      ("start_time", VDatetime 100); ("end_time", VDatetime 200);
      ("owner_name", VStr "Bo"); ("address", VStr "1 Main St") ].


(** ** Notions for the rest of the schema *)

Definition kw_primary_key (f : FieldDecl) : option bool :=
  kw_lookup (fun k => match k with Kw.primary_key b => Some b | _ => None end)
            (keywords f).


(** A table is named after its class, in lower case, and a column after
    its attribute: the form the [foreign_key] targets of the source are
    written in. *)
Definition lower_ascii (c : ascii) : ascii :=
  let n := nat_of_ascii c in
  if (65 <=? n)%nat && (n <=? 90)%nat then ascii_of_nat (n + 32) else c.

Fixpoint lower (s : string) : string :=
  match s with
  | EmptyString => EmptyString
  | String c s' => String (lower_ascii c) (lower s')
  end.

Definition tablename (m : Model) : string := lower (model_name m).

Definition column (m : Model) (f : FieldDecl) : string :=
  String.append (tablename m) (String.append "." (fname f)).

(** The column a foreign-key target names, with its table. *)
Definition resolve (target : string) : option (Model * FieldDecl) :=
  List.find (fun mf => String.eqb (column mf.1 mf.2) target)
            (m ← schema; (fun f => (m, f)) <$> fields m).

(** The foreign keys of the schema: class, attribute and target. *)
Definition foreign_keys : list (string * string * string) :=
  m ← schema;
  omap (fun f => (fun t => (model_name m, fname f, t)) <$> kw_foreign_key f)
       (fields m).


(** The fields filled by a factory when the call omits them. *)
Definition factory_fields (m : Model) : list (string * Factory) :=
  omap (fun f => (fun c => (fname f, c)) <$> kw_default_factory f) (fields m).

(** Every attribute the record holds passes the validation of its field
    and is the value that validation returns. *)
Definition valid_record (m : Model) (r : gmap string Value) : Prop :=
  forall (name : string) (f : FieldDecl) (v : Value),
    find_field m name = Some f -> r !! name = Some v ->
    validate_field f v = Ok v.

(** Sample calls for the other two situations: a booking that ends before
    it starts, and a user. *)
Definition backwards_booking_kwargs : gmap string Value :=
  <["end_time" := VDatetime 50]> booking_kwargs.


(** * Properties *)

(** ** Decimal digits and the number they denote *)

Section Digits.
Local Open Scope Z_scope.
























End Digits.

(** ** Enumerations *)

Lemma find_by_value {A : Type} (val : A -> string) (l : list A) (s : string) :
  match List.find (fun e => String.eqb (val e) s) l with
  | Some e => val e = s /\ e ∈ l
  | None => s ∉ val <$> l
  end.
Proof.
  induction l as [|a l IH]; simpl.
  - apply not_elem_of_nil.
  - destruct (String.eqb_spec (val a) s) as [Heq|Hne].
    + split; [done | apply list_elem_of_here].
    + destruct (List.find _ l) as [e|].
      * destruct IH as [? ?]. split; [done | by apply list_elem_of_further].
      * apply not_elem_of_cons. split; [congruence | done].
Qed.

Lemma enum_of_value_spec (c : EnumClass) (s : string) :
  match enum_of_value c s with
  | Some m => member_class m = c /\ member_value m = s /\ s ∈ enum_values c
  | None => s ∉ enum_values c
  end.
Proof.
  destruct c; unfold enum_of_value, enum_values.
  - pose proof (find_by_value BookingStatus.value BookingStatus.members s) as H.
    unfold BookingStatus.of_value. destruct (List.find _ _); [|exact H].
    destruct H as [<- H].
    exact (conj eq_refl (conj eq_refl (list_elem_of_fmap_2 BookingStatus.value _ _ H))).
  - pose proof (find_by_value OrderStatus.value OrderStatus.members s) as H.
    unfold OrderStatus.of_value. destruct (List.find _ _); [|exact H].
    destruct H as [<- H].
    exact (conj eq_refl (conj eq_refl (list_elem_of_fmap_2 OrderStatus.value _ _ H))).
  - pose proof (find_by_value OrderType.value OrderType.members s) as H.
    unfold OrderType.of_value. destruct (List.find _ _); [|exact H].
    destruct H as [<- H].
    exact (conj eq_refl (conj eq_refl (list_elem_of_fmap_2 OrderType.value _ _ H))).
  - pose proof (find_by_value PaymentStatus.value PaymentStatus.members s) as H.
    unfold PaymentStatus.of_value. destruct (List.find _ _); [|exact H].
    destruct H as [<- H].
    exact (conj eq_refl (conj eq_refl (list_elem_of_fmap_2 PaymentStatus.value _ _ H))).
Qed.

Lemma enum_of_value_member (m : Member) :
  enum_of_value (member_class m) (member_value m) = Some m.
Proof. by destruct m as [[]|[]|[]|[]]. Qed.

(** ** Validation of one value *)

Lemma check_type_enum_str (a : Annot) (c : EnumClass) (s : string) :
  base_annot a = t_Enum c ->
  check_type a (VStr s) =
    match enum_of_value c s with
    | Some m => Ok (VEnum m)
    | None => Err enum_error
    end.
Proof.
  induction a as [| | | | | |c'|a IH]; simpl; try done.
  by intros [= ->].
Qed.

Lemma validate_enum_str (f : FieldDecl) (c : EnumClass) (s : string) :
  base_annot (annotation f) = t_Enum c ->
  validate_field f (VStr s) =
    match enum_of_value c s with
    | Some m => Ok (VEnum m)
    | None => Err enum_error
    end.
Proof.
  intros Ha. unfold validate_field. rewrite (check_type_enum_str _ c) by done.
  by destruct (enum_of_value c s).
Qed.

Lemma check_type_member (a : Annot) (m : Member) :
  base_annot a = t_Enum (member_class m) -> check_type a (VEnum m) = Ok (VEnum m).
Proof.
  induction a as [| | | | | |c'|a IH]; simpl; try done.
  intros [= ->]. by rewrite enum_of_value_member.
Qed.

Lemma validate_member (f : FieldDecl) (m : Member) :
  base_annot (annotation f) = t_Enum (member_class m) ->
  validate_field f (VEnum m) = Ok (VEnum m).
Proof.
  intros Ha. unfold validate_field. by rewrite check_type_member.
Qed.

(** A value that passes the type check keeps its shape, so the opposite
    number passes it too. *)
Lemma check_type_negate (a : Annot) (v : Value) :
  check_type a (negate v) =
    match check_type a v with
    | Ok v' => Ok (negate v')
    | Err e => Err e
    end.
Proof.
  induction a as [| | | | | |c|a IH].
  1-7: destruct v as [| | | |[]| | |]; simpl; try done;
       repeat case_match; done.
  destruct v as [| | | |[]| | |]; simpl; try done; apply IH.
Qed.

Lemma check_ge_unbounded (f : FieldDecl) (v : Value) :
  kw_ge f = None -> check_ge f v = None.
Proof. intros H. unfold check_ge. by rewrite H. Qed.

Lemma check_constraints_negate (f : FieldDecl) (v : Value) :
  kw_ge f = None -> check_constraints f (negate v) = check_constraints f v.
Proof.
  intros Hge. destruct v as [| | | |[]| | |]; simpl; try done;
    by rewrite !check_ge_unbounded.
Qed.

Lemma validate_negate (f : FieldDecl) (v : Value) :
  kw_ge f = None ->
  validate_field f (negate v) =
    match validate_field f v with
    | Ok v' => Ok (negate v')
    | Err e => Err e
    end.
Proof.
  intros Hge. unfold validate_field. rewrite check_type_negate.
  destruct (check_type (annotation f) v) as [v'|e]; simpl; [|done].
  rewrite check_constraints_negate by done.
  by destruct (check_constraints f v').
Qed.

(** ** Field lookup *)

Lemma find_field_Some (m : Model) (name : string) (f : FieldDecl) :
  find_field m name = Some f -> f ∈ fields m /\ fname f = name.
Proof.
  unfold find_field. intros H. apply List.find_some in H as [Hin Heq].
  split; [by apply list_elem_of_In | by apply String.eqb_eq].
Qed.

(** ** Construction *)

Section Construction.
Variable implicit_none : bool.
Variable env : Env.
Variable kwargs : gmap string Value.

Lemma field_init_ok (f : FieldDecl) :
  is_ok (field_init implicit_none env kwargs f)
  = field_accepts implicit_none kwargs f.
Proof.
  unfold field_init, field_accepts, field_required.
  destruct (kwargs !! fname f); [done|].
  destruct (kw_default f); [done|].
  destruct (kw_default_factory f); [done|].
  by destruct (implicit_none && is_optional (annotation f)).
Qed.

Lemma init_fields_errs (fs : list FieldDecl) :
  (init_fields implicit_none env kwargs fs).2 = [] <->
  forallb (field_accepts implicit_none kwargs) fs = true.
Proof.
  induction fs as [|f fs IH]; simpl; [done|].
  rewrite <- field_init_ok.
  destruct (init_fields implicit_none env kwargs fs) as [vals errs].
  simpl in IH. destruct (field_init implicit_none env kwargs f); simpl.
  - done.
  - split; [done | intros [=]].
Qed.


Lemma init_fields_vals (fs : list FieldDecl) :
  (init_fields implicit_none env kwargs fs).2 = [] ->
  (init_fields implicit_none env kwargs fs).1.*1 = fname <$> fs
  /\ forall f, f ∈ fs ->
       exists v, field_init implicit_none env kwargs f = Ok v
                 /\ (fname f, v) ∈ (init_fields implicit_none env kwargs fs).1.
Proof.
  induction fs as [|g fs IH]; simpl.
  - intros _. split; [done|]. intros f Hf. by apply elem_of_nil in Hf.
  - destruct (init_fields implicit_none env kwargs fs) as [vals errs].
    simpl in IH.
    destruct (field_init implicit_none env kwargs g) as [v|e] eqn:Hg; simpl;
      [|intros [=]].
    intros ->. destruct IH as [Hnames Hvals]; [done|]. split.
    + change (fname g :: vals.*1 = fname g :: (fname <$> fs)). by f_equal.
    + intros f [-> | Hf]%elem_of_cons.
      * exists v. split; [done | apply list_elem_of_here].
      * destruct (Hvals f Hf) as (x & Hx & Hin). exists x.
        split; [done | by apply list_elem_of_further].
Qed.

(** Construction succeeds exactly on the accepted calls. *)
Lemma construct_ok_iff (m : Model) :
  is_ok (construct implicit_none env m kwargs) = accepted_call implicit_none m kwargs.
Proof.
  unfold construct, accepted_call.
  pose proof (init_fields_errs (fields m)) as H.
  destruct (init_fields implicit_none env kwargs (fields m)) as [vals [|e errs]];
    simpl in *.
  - symmetry. by apply H.
  - destruct (forallb _ _); [|done]. by destruct H as [_ H]; specialize (H eq_refl).
Qed.

(** A constructed instance holds, for each declared field, the value the
    field was initialised with. *)
Lemma construct_lookup (m : Model) (r : gmap string Value) (name : string)
                       (f : FieldDecl) :
  NoDup (fname <$> fields m) ->
  construct implicit_none env m kwargs = Ok r ->
  find_field m name = Some f ->
  exists v, field_init implicit_none env kwargs f = Ok v /\ r !! name = Some v.
Proof.
  intros Hnd Hc Hf. apply find_field_Some in Hf as [Hin <-].
  unfold construct in Hc.
  pose proof (init_fields_vals (fields m)) as H.
  destruct (init_fields implicit_none env kwargs (fields m)) as [vals [|e errs]];
    [|done].
  injection Hc as <-. destruct H as [Hnames Hvals]; [done|]. simpl in *.
  destruct (Hvals f Hin) as (v & Hv & Hel). exists v. split; [done|].
  apply elem_of_list_to_map_1; [by rewrite Hnames | done].
Qed.


End Construction.

Lemma field_names_NoDup (m : Model) :
  In m schema -> NoDup (fname <$> fields m).
Proof.
  intros [<- | [<- | [<- | [<- | []]]]];
    apply (bool_decide_unpack _); vm_compute; exact I.
Qed.

(** ** Decimal fields *)



(** ** The claims *)

(** C3: the four enumerations have exactly the listed values, every member
    carries one of them, the status and type fields of the schema are the
    four listed, and such a field accepts a string exactly when it is a
    value of its enumeration. *)
Theorem enum_value_sets :
  enum_values cls_BookingStatus
    = ["pending"; "confirmed"; "cancelled"; "completed"]
  /\ enum_values cls_OrderStatus
    = ["pending"; "confirmed"; "in_progress"; "ready"; "completed";
       "cancelled"; "refunded"]
  /\ enum_values cls_OrderType
    = ["pickup"; "delivery"; "dine_in"; "online"; "in_store"; "service"]
  /\ enum_values cls_PaymentStatus = ["pending"; "paid"; "failed"; "refunded"]
  /\ (forall m : Member, In (member_value m) (enum_values (member_class m)))
  /\ enum_fields <$> schema
     = [ []; [("status", cls_BookingStatus)];
         [("order_type", cls_OrderType); ("status", cls_OrderStatus);
          ("payment_status", cls_PaymentStatus)];
         [] ]
  /\ forall (M : Model) (name : string) (f : FieldDecl) (c : EnumClass)
            (s : string),
       In M schema -> find_field M name = Some f ->
       base_annot (annotation f) = t_Enum c ->
       (is_ok (validate_field f (VStr s)) = true <-> In s (enum_values c)).
Proof.
  do 4 (split; [reflexivity|]).
  split; [by intros [[]|[]|[]|[]]; vm_compute; tauto|].
  split; [reflexivity|].
  intros M name f c s _ _ Ha. rewrite (validate_enum_str f c s Ha).
  pose proof (enum_of_value_spec c s) as H.
  rewrite <- list_elem_of_In.
  destruct (enum_of_value c s); simpl.
  - by destruct H as (_ & _ & ?).
  - split; [done | by intros ?].
Qed.

Lemma enum_value_sets_witness :
  In Order schema
  /\ (exists f, find_field Order "status" = Some f
                /\ base_annot (annotation f) = t_Enum cls_OrderStatus
                /\ (is_ok (validate_field f (VStr "shipped")) = true
                    <-> In "shipped" (enum_values cls_OrderStatus))).
Proof.
  split; [simpl; tauto|].
  eexists. split; [reflexivity|]. split; [reflexivity|].
  destruct enum_value_sets as (_ & _ & _ & _ & _ & _ & H).
  apply (H Order "status"); [simpl; tauto | reflexivity | reflexivity].
Defined.

(** C1, as stated, fails on the code: the two price attributes of
    [Booking] are not declared with an exact decimal type. *)
Lemma Booking_prices_not_exact_decimal :
  ~ (forall name : string,
       In name ["estimated_price"; "final_price"] ->
       exists f, find_field Booking name = Some f
                 /\ is_optional (annotation f) = true
                 /\ exact_decimal (annotation f) = true
                 /\ binary_float (annotation f) = false).
Proof.
  intros H. destruct (H "estimated_price") as (f & Hf & _ & Hex & _).
  - simpl. tauto.
  - injection Hf as <-. discriminate Hex.
Qed.

(** C1, amended: the price attributes of [Booking] are optional, default
    to [None], and are declared as binary floating-point numbers with no
    digit constraint, so every float given for them is stored as it is;
    the other attributes that hold money, those of [Order] and
    [OrderItem], are declared [Decimal]. *)
Theorem pricing_representation (cls name : string) :
  In (cls, name) pricing_fields ->
  exists M f,
    model_named cls = Some M /\ find_field M name = Some f
    /\ if String.eqb cls "Booking"
       then annotation f = Optional t_float
            /\ binary_float (annotation f) = true
            /\ exact_decimal (annotation f) = false
            /\ kw_default f = Some VNone
            /\ kw_max_digits f = None /\ kw_decimal_places f = None
            /\ validate_field f VNone = Ok VNone
            /\ forall x : spec_float, validate_field f (VFloat x) = Ok (VFloat x)
       else annotation f = t_Decimal
            /\ exact_decimal (annotation f) = true
            /\ binary_float (annotation f) = false.
Proof.
  simpl. intros H.
  repeat (destruct H as [[= <- <-] | H];
          [do 2 eexists; do 2 (split; [reflexivity|]); simpl;
           repeat split; done |]).
  destruct H.
Qed.

Lemma pricing_representation_witness :
  In ("Booking", "final_price") pricing_fields
  /\ exists M f,
       model_named "Booking" = Some M /\ find_field M "final_price" = Some f
       /\ annotation f = Optional t_float
       /\ validate_field f (VFloat float_one_eighth)
          = Ok (VFloat float_one_eighth).
Proof.
  assert (Hin : In ("Booking", "final_price") pricing_fields)
    by (simpl; tauto).
  split; [exact Hin|].
  destruct (pricing_representation "Booking" "final_price" Hin)
    as (M & f & HM & Hf & Ha & _ & _ & _ & _ & _ & _ & Hx).
  exists M, f. split; [exact HM|]. split; [exact Hf|]. split; [exact Ha|].
  apply Hx.
Defined.




(** ** Defaults of constructed instances *)

Lemma construct_default (implicit_none : bool) (env : Env) (m : Model)
    (kwargs r : gmap string Value) (name : string) (f : FieldDecl)
    (d : Value) :
  In m schema ->
  construct implicit_none env m kwargs = Ok r ->
  find_field m name = Some f ->
  kwargs !! name = None -> kw_default f = Some d ->
  r !! name = Some d.
Proof.
  intros Hm Hc Hf Hnone Hd.
  destruct (construct_lookup implicit_none env kwargs m r name f)
    as (v & Hv & Hr); [by apply field_names_NoDup | done | done |].
  apply find_field_Some in Hf as [_ Hname].
  unfold field_init in Hv. rewrite Hname, Hnone, Hd in Hv.
  by injection Hv as <-.
Qed.

Lemma accepted_call_constructs (implicit_none : bool) (env : Env) (m : Model)
    (kwargs : gmap string Value) :
  accepted_call implicit_none m kwargs = true ->
  exists r, construct implicit_none env m kwargs = Ok r.
Proof.
  intros H. rewrite <- (construct_ok_iff implicit_none env) in H.
  destruct (construct implicit_none env m kwargs) as [r|errs]; [|done].
  by exists r.
Qed.

(** C2: an [Order] built by a call that the declarations accept and that
    gives no value for the defaulted fields holds zero for the four
    amounts, "pending" for both statuses, "pickup" for the order type and
    "US" for the country. *)
Theorem Order_defaults (implicit_none : bool) (env : Env)
    (kwargs : gmap string Value) :
  accepted_call implicit_none Order kwargs = true ->
  (forall name : string,
     In name ["tax_amount"; "service_fee"; "discount_amount"; "tip_amount";
              "status"; "payment_status"; "order_type"; "country"] ->
     kwargs !! name = None) ->
  exists r,
    construct implicit_none env Order kwargs = Ok r
    /\ holds r "tax_amount" (VDecimal (Dec false 0 (-2)))
    /\ holds r "service_fee" (VDecimal (Dec false 0 (-2)))
    /\ holds r "discount_amount" (VDecimal (Dec false 0 (-2)))
    /\ holds r "tip_amount" (VDecimal (Dec false 0 (-2)))
    /\ holds r "status" (VStr "pending")
    /\ holds r "payment_status" (VStr "pending")
    /\ holds r "order_type" (VStr "pickup")
    /\ holds r "country" (VStr "US").
Proof.
  intros Hacc Hnone.
  destruct (accepted_call_constructs implicit_none env Order kwargs Hacc)
    as [r Hr].
  assert (HO : In Order schema) by (simpl; tauto).
  exists r. split; [exact Hr|].
  repeat split;
    (eexists; split;
     [ eapply (construct_default implicit_none env Order kwargs r);
       [ exact HO | exact Hr | reflexivity | apply Hnone; simpl; tauto
       | reflexivity ]
     | reflexivity ]).
Qed.

Lemma Order_defaults_witness :
  accepted_call true Order order_kwargs = true
  /\ exists r,
       construct true sample_env Order order_kwargs = Ok r
       /\ holds r "tax_amount" (VDecimal (Dec false 0 (-2)))
       /\ holds r "status" (VStr "pending")
       /\ holds r "country" (VStr "US").
Proof.
  assert (Hacc : accepted_call true Order order_kwargs = true)
    by (vm_compute; reflexivity).
  split; [exact Hacc|].
  destruct (Order_defaults true sample_env order_kwargs Hacc)
    as (r & Hr & Htax & _ & _ & _ & Hst & _ & _ & Hc).
  - intros name Hin. simpl in Hin.
    repeat (destruct Hin as [<- | Hin]; [vm_compute; reflexivity|]).
    destruct Hin.
  - exists r. split; [exact Hr|]. split; [exact Htax|].
    split; [exact Hst | exact Hc].
Defined.

(** ** The quantity of an order line *)





(** C7: a [Booking] or an [Order] built by an accepted call that omits
    [user_id] is built, and holds [None] for it; the attribute is an
    optional identifier that no call has to supply. *)
Theorem guest_user_id (implicit_none : bool) (env : Env) (M : Model)
    (kwargs : gmap string Value) :
  In M [Booking; Order] ->
  accepted_call implicit_none M kwargs = true ->
  kwargs !! "user_id" = None ->
  (exists f, find_field M "user_id" = Some f
             /\ annotation f = Optional t_UUID
             /\ kw_default f = Some VNone
             /\ kw_foreign_key f = Some "user.id"
             /\ field_required implicit_none f = false)
  /\ exists r, construct implicit_none env M kwargs = Ok r
               /\ r !! "user_id" = Some VNone.
Proof.
  intros HM Hacc Hnone.
  destruct (accepted_call_constructs implicit_none env M kwargs Hacc)
    as [r Hr].
  destruct HM as [<- | [<- | []]].
  - split; [eexists; by repeat split|].
    exists r. split; [exact Hr|].
    eapply (construct_default implicit_none env Booking kwargs r);
      [simpl; tauto | exact Hr | reflexivity | exact Hnone | reflexivity].
  - split; [eexists; by repeat split|].
    exists r. split; [exact Hr|].
    eapply (construct_default implicit_none env Order kwargs r);
      [simpl; tauto | exact Hr | reflexivity | exact Hnone | reflexivity].
Qed.

Lemma guest_user_id_witness :
  (accepted_call true Booking booking_kwargs = true
   /\ booking_kwargs !! "user_id" = None
   /\ exists r, construct true sample_env Booking booking_kwargs = Ok r
                /\ r !! "user_id" = Some VNone)
  /\ (accepted_call true Order order_kwargs = true
      /\ order_kwargs !! "user_id" = None
      /\ exists r, construct true sample_env Order order_kwargs = Ok r
                   /\ r !! "user_id" = Some VNone).
Proof.
  split.
  - assert (Hacc : accepted_call true Booking booking_kwargs = true)
      by (vm_compute; reflexivity).
    assert (Hnone : booking_kwargs !! "user_id" = None)
      by (vm_compute; reflexivity).
    split; [exact Hacc|]. split; [exact Hnone|].
    apply (guest_user_id true sample_env Booking booking_kwargs);
      [simpl; tauto | exact Hacc | exact Hnone].
  - assert (Hacc : accepted_call true Order order_kwargs = true)
      by (vm_compute; reflexivity).
    assert (Hnone : order_kwargs !! "user_id" = None)
      by (vm_compute; reflexivity).
    split; [exact Hacc|]. split; [exact Hnone|].
    apply (guest_user_id true sample_env Order order_kwargs);
      [simpl; tauto | exact Hacc | exact Hnone].
Defined.

(** ** Assignment *)

Lemma setattr_validating (m : Model) (r : gmap string Value) (name : string)
    (f : FieldDecl) (v : Value) :
  validate_assignment (config m) = true ->
  find_field m name = Some f ->
  setattr m r name v =
    match validate_field f v with
    | Ok v' => Ok (<[name := v']> r)
    | Err e => Err e
    end.
Proof. intros Hc Hf. unfold setattr. by rewrite Hf, Hc. Qed.

Lemma setattr_unchecked (m : Model) (r : gmap string Value) (name : string)
    (f : FieldDecl) (v : Value) :
  validate_assignment (config m) = false ->
  find_field m name = Some f ->
  setattr m r name v = Ok (<[name := v]> r).
Proof. intros Hc Hf. unfold setattr. by rewrite Hf, Hc. Qed.

(** C6: on an [Order], any status and any payment status can be assigned,
    in either order and whatever the record holds; each assignment stores
    its own attribute and leaves the other as it was, so every pair of a
    status and a payment status is reached. *)
Theorem Order_status_payment_independent (r : gmap string Value)
    (s : OrderStatus.t) (p : PaymentStatus.t) :
  let vs := VEnum (in_OrderStatus s) in
  let vp := VEnum (in_PaymentStatus p) in
  setattr Order r "status" vs = Ok (<["status" := vs]> r)
  /\ setattr Order r "payment_status" vp = Ok (<["payment_status" := vp]> r)
  /\ (<["status" := vs]> r) !! "payment_status" = r !! "payment_status"
  /\ (<["payment_status" := vp]> r) !! "status" = r !! "status"
  /\ exists r',
       and_then (setattr Order r "status" vs)
                (fun r1 => setattr Order r1 "payment_status" vp) = Ok r'
       /\ and_then (setattr Order r "payment_status" vp)
                   (fun r1 => setattr Order r1 "status" vs) = Ok r'
       /\ r' !! "status" = Some vs
       /\ r' !! "payment_status" = Some vp.
Proof.
  intros vs vp.
  assert (Hs : forall r0, setattr Order r0 "status" vs
                          = Ok (<["status" := vs]> r0)).
  { intros r0. rewrite (setattr_validating Order r0 "status" _ vs eq_refl eq_refl).
    by rewrite (validate_member _ (in_OrderStatus s)). }
  assert (Hp : forall r0, setattr Order r0 "payment_status" vp
                          = Ok (<["payment_status" := vp]> r0)).
  { intros r0.
    rewrite (setattr_validating Order r0 "payment_status" _ vp eq_refl eq_refl).
    by rewrite (validate_member _ (in_PaymentStatus p)). }
  split; [apply Hs|]. split; [apply Hp|].
  split; [by rewrite lookup_insert_ne|]. split; [by rewrite lookup_insert_ne|].
  exists (<["payment_status" := vp]> (<["status" := vs]> r)).
  rewrite Hs, Hp. cbn [and_then]. rewrite Hs, Hp.
  split; [done|]. split; [by rewrite insert_insert_ne|].
  split; [by rewrite lookup_insert_ne, lookup_insert_eq
         | by rewrite lookup_insert_eq].
Qed.



(** Further assignments that an [Order] rejects: an amount with three
    digits after the point, a status outside the enumeration, [None] for a
    required name. *)
Example Order_rejects_invalid_assignments (r : gmap string Value) :
  setattr Order r "subtotal" (VDecimal (Dec false 1234 (-3)))
    = Err (decimal_max_places 2)
  /\ setattr Order r "total_amount" (VDecimal (Dec false 12345678901 (-2)))
    = Err (decimal_max_digits 10)
  /\ setattr Order r "status" (VStr "shipped") = Err enum_error
  /\ setattr Order r "customer_name" VNone = Err none_not_allowed
  /\ setattr Order r "nickname" (VStr "x") = Err no_such_field.
Proof. repeat split; vm_compute; reflexivity. Qed.

(** C9: of the four models only [Order] sets [validate_assignment]; an
    assignment to a field of a [User], a [Booking] or an [OrderItem] stores
    the value whatever it is, also when the field's validation rejects it. *)
Theorem only_Order_validates_assignment :
  (forall M : Model,
     In M schema ->
     (validate_assignment (config M) = true <-> model_name M = "Order"))
  /\ forall (M : Model) (r : gmap string Value) (name : string)
            (f : FieldDecl) (v : Value),
       In M [User; Booking; OrderItem] ->
       find_field M name = Some f ->
       validate_assignment (config M) = false
       /\ setattr M r name v = Ok (<[name := v]> r).
Proof.
  split.
  - intros M [<- | [<- | [<- | [<- | []]]]]; simpl; split; done.
  - intros M r name f v HM Hf.
    assert (Hc : validate_assignment (config M) = false)
      by (destruct HM as [<- | [<- | [<- | []]]]; reflexivity).
    split; [exact Hc | by apply (setattr_unchecked M r name f v)].
Qed.

Lemma only_Order_validates_assignment_witness :
  In User [User; Booking; OrderItem]
  /\ exists f : FieldDecl,
       find_field User "name" = Some f
       /\ validate_field f (VStr (letters 101)) = Err (max_length_error 100)
       /\ forall r : gmap string Value,
            setattr User r "name" (VStr (letters 101))
            = Ok (<["name" := VStr (letters 101)]> r).
Proof.
  assert (HM : In User [User; Booking; OrderItem]) by (simpl; tauto).
  split; [exact HM|].
  eexists. split; [reflexivity|]. split; [vm_compute; reflexivity|].
  intros r. destruct only_Order_validates_assignment as [_ H].
  exact (proj2 (H User r "name" _ (VStr (letters 101)) HM eq_refl)).
Defined.

(** Assignments that violate a declared constraint and are stored all the
    same by the models without [validate_assignment]. *)
Example unchecked_assignments (r : gmap string Value) :
  setattr Booking r "client_name" (VStr (letters 256))
    = Ok (<["client_name" := VStr (letters 256)]> r)
  /\ setattr OrderItem r "quantity" (VInt 0)
    = Ok (<["quantity" := VInt 0]> r)
  /\ setattr OrderItem r "unit_price" (VDecimal (Dec false 1 (-3)))
    = Ok (<["unit_price" := VDecimal (Dec false 1 (-3))]> r).
Proof. repeat split. Qed.

(** C10: the only declared lower bound of the schema is the one on
    [OrderItem.quantity]; every other field annotated with a number type
    is a pricing field, declares no bound, accepts a number exactly when
    it accepts the opposite number, and accepts some negative number. *)
Theorem only_quantity_lower_bounded :
  lower_bounded <$> schema = [ []; []; []; ["quantity"] ]
  /\ numeric_fields
     = [ ("Booking", "estimated_price"); ("Booking", "final_price");
         ("Order", "subtotal"); ("Order", "tax_amount");
         ("Order", "service_fee"); ("Order", "discount_amount");
         ("Order", "tip_amount"); ("Order", "total_amount");
         ("OrderItem", "quantity"); ("OrderItem", "unit_price");
         ("OrderItem", "total_price") ]
  /\ (exists f, find_field OrderItem "quantity" = Some f
                /\ kw_ge f = Some 1%Z
                /\ is_ok (validate_field f (VInt (-1))) = false)
  /\ forall cls name : string,
       In (cls, name) numeric_fields ->
       (cls, name) <> ("OrderItem", "quantity") ->
       In (cls, name) pricing_fields
       /\ exists M f,
            model_named cls = Some M /\ find_field M name = Some f
            /\ kw_ge f = None
            /\ (forall v : Value,
                  is_ok (validate_field f (negate v))
                  = is_ok (validate_field f v))
            /\ exists v : Value,
                 is_negative v = true /\ is_ok (validate_field f v) = true.
Proof.
  split; [reflexivity|]. split; [reflexivity|].
  split; [eexists; repeat split; reflexivity|].
  intros cls name Hin Hne. simpl in Hin.
  repeat (destruct Hin as [[= <- <-] | Hin];
    [ first
        [ done
        | split; [simpl; tauto|];
          do 2 eexists; do 3 (split; [reflexivity|]);
          split;
          [ intros v; rewrite validate_negate by reflexivity;
            by destruct (validate_field _ v)
          | first
              [ exists (VFloat float_minus_one); split; reflexivity
              | exists (VDecimal (Dec true 100 (-2))); split; reflexivity ] ] ]
    | ]).
  destruct Hin.
Qed.

Lemma only_quantity_lower_bounded_witness :
  In ("Order", "discount_amount") numeric_fields
  /\ ("Order", "discount_amount") <> ("OrderItem", "quantity")
  /\ exists M f,
       model_named "Order" = Some M
       /\ find_field M "discount_amount" = Some f
       /\ kw_ge f = None
       /\ exists v : Value,
            is_negative v = true /\ is_ok (validate_field f v) = true.
Proof.
  assert (Hin : In ("Order", "discount_amount") numeric_fields)
    by (simpl; tauto).
  assert (Hne : ("Order", "discount_amount") <> ("OrderItem", "quantity"))
    by discriminate.
  split; [exact Hin|]. split; [exact Hne|].
  destruct only_quantity_lower_bounded as (_ & _ & _ & H).
  destruct (H "Order" "discount_amount" Hin Hne)
    as (_ & M & f & HM & Hf & Hge & _ & Hv).
  exists M, f. split; [exact HM|]. split; [exact Hf|]. split; [exact Hge|].
  exact Hv.
Defined.

(** * The rest of the schema *)

(** ** Validated values *)

Lemma check_type_Optional (a : Annot) (v : Value) :
  check_type (Optional a) v
  = match v with VNone => Ok VNone | _ => check_type a v end.
Proof. by destruct v. Qed.

Lemma check_type_idempotent (a : Annot) (v v' : Value) :
  check_type a v = Ok v' -> check_type a v' = Ok v'.
Proof.
  revert v v'. induction a as [| | | | | |c|a IH]; intros v v' H.
  1-6: destruct v as [| | | |[]| | |]; simpl in H; try discriminate;
       by injection H as <-.
  - assert (Hm : forall s m, enum_of_value c s = Some m ->
                             check_type (t_Enum c) (VEnum m) = Ok (VEnum m)).
    { intros s m Hs. pose proof (enum_of_value_spec c s) as Hspec.
      rewrite Hs in Hspec. destruct Hspec as (<- & _ & _).
      simpl. by rewrite enum_of_value_member. }
    destruct v as [| s | | | | | | m]; simpl in H; try discriminate.
    + destruct (enum_of_value c s) as [m|] eqn:Hs; [|discriminate].
      injection H as <-. by apply (Hm s).
    + destruct (enum_of_value c (member_value m)) as [m'|] eqn:Hs;
        [|discriminate].
      injection H as <-. by apply (Hm (member_value m)).
  - rewrite check_type_Optional in H. rewrite check_type_Optional.
    destruct v'; [done | ..];
      (destruct v; [discriminate H | ..]; by apply (IH _ _ H)).
Qed.

Lemma validate_field_fixed (f : FieldDecl) (v v' : Value) :
  validate_field f v = Ok v' -> validate_field f v' = Ok v'.
Proof.
  unfold validate_field. intros H.
  destruct (check_type (annotation f) v) as [w|] eqn:Hw; [|discriminate].
  simpl in H. destruct (check_constraints f w) eqn:Hc; [discriminate|].
  injection H as <-. rewrite (check_type_idempotent _ _ _ Hw). simpl.
  by rewrite Hc.
Qed.




(** ** Enumerations by value *)

(** The values of an enumeration are distinct, looking a member's value up
    gives the member back, a successful lookup gives a member of the class
    with the value asked for, and an enumeration field given the value of
    a member holds that member, which equals the string. *)
Theorem enum_round_trip :
  (forall c : EnumClass, NoDup (enum_values c))
  /\ (forall m : Member,
        enum_of_value (member_class m) (member_value m) = Some m)
  /\ (forall (c : EnumClass) (s : string) (m : Member),
        enum_of_value c s = Some m -> member_class m = c /\ member_value m = s)
  /\ (forall (f : FieldDecl) (m : Member),
        base_annot (annotation f) = t_Enum (member_class m) ->
        validate_field f (VStr (member_value m)) = Ok (VEnum m)
        /\ py_eq (VEnum m) (VStr (member_value m)) = true).
Proof.
  split; [|split; [|split]].
  - intros []; apply (bool_decide_unpack _); vm_compute; exact I.
  - apply enum_of_value_member.
  - intros c s m H. pose proof (enum_of_value_spec c s) as Hs.
    rewrite H in Hs. by destruct Hs as (? & ? & _).
  - intros f m Ha. split.
    + rewrite (validate_enum_str f _ _ Ha). by rewrite enum_of_value_member.
    + simpl. apply String.eqb_refl.
Qed.

Lemma enum_round_trip_witness :
  enum_of_value cls_OrderType "dine_in" = Some (in_OrderType OrderType.DINE_IN)
  /\ member_value (in_OrderType OrderType.DINE_IN) = "dine_in"
  /\ validate_field (Attr "order_type" (t_Enum cls_OrderType)
                       [Kw.default (VEnum (in_OrderType OrderType.PICKUP))])
                    (VStr "dine_in")
     = Ok (VEnum (in_OrderType OrderType.DINE_IN)).
Proof.
  destruct enum_round_trip as (_ & _ & Hlook & Hval).
  assert (H : enum_of_value cls_OrderType "dine_in"
              = Some (in_OrderType OrderType.DINE_IN)) by reflexivity.
  split; [exact H|]. split; [exact (proj2 (Hlook _ _ _ H))|].
  exact (proj1 (Hval (Attr "order_type" (t_Enum cls_OrderType)
                        [Kw.default (VEnum (in_OrderType OrderType.PICKUP))])
                     (in_OrderType OrderType.DINE_IN) eq_refl)).
Defined.

(** ** String fields *)






(** ** Declared fields and constructed records *)

Lemma find_field_complete (m : Model) (f : FieldDecl) :
  NoDup (fname <$> fields m) -> f ∈ fields m ->
  find_field m (fname f) = Some f.
Proof.
  unfold find_field. induction (fields m) as [|g fs IH]; intros Hnd Hin.
  - by apply elem_of_nil in Hin.
  - rewrite fmap_cons in Hnd. apply NoDup_cons in Hnd as [Hg Hnd].
    simpl. destruct (String.eqb_spec (fname g) (fname f)) as [Heq|Hne].
    + apply elem_of_cons in Hin as [-> | Hin]; [done|].
      exfalso. apply Hg. rewrite Heq. by apply list_elem_of_fmap_2.
    + apply elem_of_cons in Hin as [-> | Hin]; [done | by apply IH].
Qed.









Lemma no_default_with_factory :
  forallb (fun m =>
    forallb (fun f =>
      match kw_default f, kw_default_factory f with
      | Some _, Some _ => false
      | _, _ => true
      end) (fields m)) schema = true.
Proof. vm_compute. reflexivity. Qed.

(** The attributes with a default factory are the identifiers and the
    timestamps listed ([User] declares no factory for its timestamps).  A
    constructed instance holds, for each of them that the call omits, what
    the factory returned when called for it. *)
Theorem factory_defaults (implicit_none : bool) (env : Env) (M : Model)
    (kwargs r : gmap string Value) (name : string) (f : FieldDecl)
    (c : Factory) :
  In M schema ->
  construct implicit_none env M kwargs = Ok r ->
  find_field M name = Some f -> kw_default_factory f = Some c ->
  kwargs !! name = None ->
  r !! name = Some (call_factory env name c)
  /\ factory_fields <$> schema
     = [ [("id", uuid4)];
         [("id", uuid4); ("created_at", datetime_utcnow);
          ("updated_at", datetime_utcnow)];
         [("id", uuid4); ("created_at", datetime_utcnow);
          ("updated_at", datetime_utcnow)];
         [("id", uuid4); ("created_at", datetime_utcnow)] ].
Proof.
  intros HM Hc Hf Hfac Hnone. split; [|reflexivity].
  destruct (construct_lookup implicit_none env kwargs M r name f
              (field_names_NoDup M HM) Hc Hf) as (v & Hinit & Hr).
  apply find_field_Some in Hf as [Hin Hname].
  pose proof no_default_with_factory as Hall.
  rewrite forallb_forall in Hall. specialize (Hall M HM).
  rewrite forallb_forall in Hall.
  specialize (Hall f (proj1 (list_elem_of_In _ _) Hin)).
  unfold field_init in Hinit. rewrite Hname, Hnone, Hfac in Hinit.
  rewrite Hfac in Hall. destruct (kw_default f); [discriminate Hall|].
  by injection Hinit as <-.
Qed.

Lemma factory_defaults_witness :
  In Booking schema
  /\ booking_kwargs !! "created_at" = None
  /\ exists r : gmap string Value,
       construct true sample_env Booking booking_kwargs = Ok r
       /\ r !! "created_at"
          = Some (VDatetime (utcnow_for sample_env "created_at")).
Proof.
  assert (HM : In Booking schema) by (simpl; tauto).
  assert (Hnone : booking_kwargs !! "created_at" = None)
    by (vm_compute; reflexivity).
  split; [exact HM|]. split; [exact Hnone|].
  destruct (construct true sample_env Booking booking_kwargs)
    as [r|errs] eqn:Hc; [|vm_compute in Hc; discriminate Hc].
  exists r. split; [reflexivity|].
  exact (proj1 (factory_defaults true sample_env Booking booking_kwargs r
                  "created_at" _ datetime_utcnow HM Hc eq_refl eq_refl Hnone)).
Defined.



(** ** Foreign keys *)

Lemma resolve_Some (target : string) (M : Model) (pk : FieldDecl) :
  resolve target = Some (M, pk) ->
  In M schema /\ find_field M (fname pk) = Some pk /\ column M pk = target.
Proof.
  unfold resolve. intros H. apply List.find_some in H as [Hin Heq].
  apply String.eqb_eq in Heq. simpl in Heq.
  apply list_elem_of_In, list_elem_of_bind in Hin as (m & Hmf & Hm).
  apply list_elem_of_fmap_1 in Hmf as (f & [= -> ->] & Hf).
  apply list_elem_of_In in Hm.
  split; [exact Hm|]. split; [|exact Heq].
  apply find_field_complete; [by apply field_names_NoDup | done].
Qed.

Lemma foreign_keys_checked :
  forallb (fun m =>
    forallb (fun f =>
      match kw_foreign_key f with
      | None => true
      | Some t =>
          match resolve t with
          | Some (_, pk) =>
              match base_annot (annotation f), annotation pk,
                    kw_primary_key pk with
              | t_UUID, t_UUID, Some true =>
                  if is_optional (annotation f)
                  then match kw_default f with
                       | Some VNone => true
                       | _ => false
                       end
                  else match kw_default f, kw_default_factory f with
                       | None, None => true
                       | _, _ => false
                       end
              | _, _, _ => false
              end
          | None => false
          end
      end) (fields m)) schema = true.
Proof. vm_compute. reflexivity. Qed.

(** The foreign keys of the schema are the three listed.  Each target
    names a column of a declared table (the class name in lower case),
    that column is the primary key of its table, and both ends are UUIDs.
    A reference that may be [None] defaults to [None]; one that may not
    has no default at all, so a call has to supply it. *)
Theorem foreign_keys_resolve (M : Model) (name : string) (f : FieldDecl)
    (target : string) :
  In M schema -> find_field M name = Some f ->
  kw_foreign_key f = Some target ->
  foreign_keys
  = [ ("Booking", "user_id", "user.id"); ("Order", "user_id", "user.id");
      ("OrderItem", "order_id", "order.id") ]
  /\ exists (M' : Model) (pk : FieldDecl),
       resolve target = Some (M', pk)
       /\ In M' schema /\ find_field M' (fname pk) = Some pk
       /\ column M' pk = target
       /\ kw_primary_key pk = Some true
       /\ annotation pk = t_UUID /\ base_annot (annotation f) = t_UUID
       /\ (if is_optional (annotation f)
           then kw_default f = Some VNone
           else forall implicit_none : bool,
                  field_required implicit_none f = true).
Proof.
  intros HM Hf Hfk. split; [reflexivity|].
  apply find_field_Some in Hf as [Hin _].
  pose proof foreign_keys_checked as Hall.
  rewrite forallb_forall in Hall. specialize (Hall M HM).
  rewrite forallb_forall in Hall.
  specialize (Hall f (proj1 (list_elem_of_In _ _) Hin)).
  rewrite Hfk in Hall.
  destruct (resolve target) as [[M' pk]|] eqn:Hres; [|discriminate].
  destruct (resolve_Some _ _ _ Hres) as (HM' & Hpk & Hcol).
  exists M', pk. do 4 (split; [done|]).
  destruct (base_annot (annotation f)); try discriminate.
  destruct (annotation pk); try discriminate.
  destruct (kw_primary_key pk) as [[]|]; try discriminate.
  do 3 (split; [reflexivity|]).
  unfold field_required.
  destruct (is_optional (annotation f)).
  - destruct (kw_default f) as [[]|]; try discriminate. reflexivity.
  - destruct (kw_default f); [discriminate|].
    destruct (kw_default_factory f); [discriminate|].
    intros b. by rewrite andb_false_r.
Qed.

Lemma foreign_keys_resolve_witness :
  In OrderItem schema
  /\ exists (f : FieldDecl) (M' : Model) (pk : FieldDecl),
       find_field OrderItem "order_id" = Some f
       /\ kw_foreign_key f = Some "order.id"
       /\ resolve "order.id" = Some (M', pk)
       /\ model_name M' = "Order" /\ fname pk = "id".
Proof.
  assert (HM : In OrderItem schema) by (simpl; tauto).
  split; [exact HM|].
  destruct (foreign_keys_resolve OrderItem "order_id" _ "order.id" HM
              eq_refl eq_refl) as (_ & M' & pk & Hres & _).
  eexists. exists M', pk. split; [reflexivity|]. split; [reflexivity|].
  split; [exact Hres|].
  vm_compute in Hres. injection Hres as <- <-. split; reflexivity.
Defined.

(** ** Assignment and the other attributes *)





(** With [validate_assignment] set, as on [Order], an assignment keeps a
    valid record valid.  Without it a valid record can be made invalid: a
    [Booking] accepts a client name of 256 letters. *)
Theorem validating_assignment_keeps_validity (M : Model)
    (r r' : gmap string Value) (name : string) (v : Value) :
  validate_assignment (config M) = true ->
  valid_record M r ->
  setattr M r name v = Ok r' ->
  valid_record M r'
  /\ validate_assignment (config Order) = true
  /\ exists r1 : gmap string Value,
       valid_record Booking ∅
       /\ setattr Booking ∅ "client_name" (VStr (letters 256)) = Ok r1
       /\ ~ valid_record Booking r1.
Proof.
  intros Hcfg Hvalid Hset. split; [|split; [reflexivity|]].
  - unfold setattr in Hset.
    destruct (find_field M name) as [f|] eqn:Hf; [|discriminate].
    rewrite Hcfg in Hset.
    destruct (validate_field f v) as [w|] eqn:Hw; [|discriminate].
    injection Hset as <-. intros name0 f0 v0 Hf0 Hr0.
    destruct (decide (name = name0)) as [<- | Hne].
    + rewrite lookup_insert_eq in Hr0. injection Hr0 as <-.
      rewrite Hf in Hf0. injection Hf0 as <-.
      by apply (validate_field_fixed f v).
    + rewrite lookup_insert_ne in Hr0 by done. by apply (Hvalid name0).
  - eexists. split; [|split; [reflexivity|]].
    + intros name0 f0 v0 _ H0. by rewrite lookup_empty in H0.
    + intros H.
      specialize (H "client_name" _ (VStr (letters 256)) eq_refl
                    (lookup_insert_eq _ _ _)).
      vm_compute in H. discriminate H.
Qed.

Lemma validating_assignment_keeps_validity_witness :
  validate_assignment (config Order) = true
  /\ valid_record Order {["customer_name" := VStr "Ann"]}
  /\ exists r' : gmap string Value,
       setattr Order {["customer_name" := VStr "Ann"]} "status" (VStr "ready")
       = Ok r'
       /\ valid_record Order r'.
Proof.
  assert (Hv : valid_record Order {["customer_name" := VStr "Ann"]}).
  { intros name f v Hf Hr.
    apply lookup_singleton_Some in Hr as [<- <-].
    injection Hf as <-. reflexivity. }
  split; [reflexivity|]. split; [exact Hv|].
  destruct (setattr Order {["customer_name" := VStr "Ann"]} "status"
              (VStr "ready")) as [r'|e] eqn:Hs;
    [|vm_compute in Hs; discriminate Hs].
  exists r'. split; [reflexivity|].
  exact (proj1 (validating_assignment_keeps_validity Order _ r' "status"
                  (VStr "ready") eq_refl Hv Hs)).
Defined.

(** ** Calls are checked field by field *)



(** ** Amounts are validated by their value *)




(** ** Declared defaults *)

(** Defaults are stored without validation, so it matters that they are
    legal: every default the schema declares is a value its field accepts
    as it is, but for the amounts of [Order], whose default is the integer
    0 on a [Decimal] field: the decimal zero it equals is accepted.  Only
    [Optional] attributes default to [None]. *)
Theorem declared_defaults_legal (M : Model) (name : string) (f : FieldDecl)
    (d : Value) :
  In M schema -> find_field M name = Some f -> kw_default f = Some d ->
  (d = VNone -> is_optional (annotation f) = true)
  /\ (validate_field f d = Ok d
      \/ (annotation f = t_Decimal /\ d = VInt 0
          /\ py_eq d (VDecimal (Dec false 0 0)) = true
          /\ validate_field f (VDecimal (Dec false 0 0))
             = Ok (VDecimal (Dec false 0 0)))).
Proof.
  intros HM Hf Hd. apply find_field_Some in Hf as [Hin _].
  destruct HM as [<- | [<- | [<- | [<- | []]]]]; simpl in Hin;
    repeat (apply elem_of_cons in Hin as [-> | Hin];
            [ try discriminate Hd; injection Hd as <-;
              (split; [done|]);
              first [ left; reflexivity | right; repeat split; reflexivity ]
            | ]);
    by apply elem_of_nil in Hin.
Qed.

Lemma declared_defaults_legal_witness :
  In Order schema
  /\ exists f : FieldDecl,
       find_field Order "country" = Some f
       /\ kw_default f = Some (VStr "US")
       /\ validate_field f (VStr "US") = Ok (VStr "US").
Proof.
  assert (HM : In Order schema) by (simpl; tauto).
  split; [exact HM|].
  eexists. split; [reflexivity|]. split; [reflexivity|].
  destruct (declared_defaults_legal Order "country" _ (VStr "US") HM
              eq_refl eq_refl) as [_ [H | (Ha & _)]].
  - exact H.
  - discriminate Ha.
Defined.
